(** * hutil/csrc/RoIAlign.h

    The header is the C++ dispatch shim of the RoIAlign operator.  Every
    line of it is a line comment or is empty.  This development has
    three parts:

    - [Text]: the file as it stands, line by line, with the first phases
      of C++ translation (line splicing, comment removal, tokens) and the
      reading of a function declaration off the tokens;
    - [Dispatch]: the two functions the disabled text spells out,
      [RoIAlign_forward] and [RoIAlign_backward]: their bodies as they
      read once one level of comment markers is taken away, over the
      parameters the bodies name;
    - [Body]: the statements of the bodies and conditional compilation,
      read off the tokens. *)

From Stdlib Require Import Ascii String List Bool ZArith Lia.
From Stdlib Require Import Floats.SpecFloat.
Import ListNotations.

Local Open Scope string_scope.
Local Open Scope list_scope.

(** ** The file *)

Module Text.

(** The one character a string literal of this file cannot spell. *)
Definition dquote : string := String (ascii_of_nat 34) EmptyString.

(** src/hutil/csrc/RoIAlign.h, lines 1 to 55 (the last has no newline). *)
Definition RoIAlign_h : list string :=
  [ "// #pragma once"
  ; ""
  ; ("// #include " ++ dquote ++ "cpu/vision.h" ++ dquote)%string
  ; ""
  ; "// #ifdef WITH_CUDA"
  ; ("// #include " ++ dquote ++ "cuda/vision.h" ++ dquote)%string
  ; "// #endif"
  ; ""
  ; "// // Interface for Python"
  ; "// at::Tensor RoIAlign_forward(const at::Tensor& input,    // Input feature map."
  ; "//                             const at::Tensor& rois,     // List of RoIs to"
  ; "//                             pool over. const float scale_h,  // The scale of"
  ; "//                             the image features. RoIs will be scaled to this."
  ; "//                             const float scale_w,"
  ; "//                             const int pooled_height,    // The height of the"
  ; "//                             pooled feature map. const int pooled_width, //"
  ; "//                             The width of the pooled feature const int"
  ; "//                             sampling_ratio)   // The number of points to"
  ; "//                             sample in each bin along each axis."
  ; "// {"
  ; "//   if (input.type().is_cuda()) {"
  ; "// #ifdef WITH_CUDA"
  ; "//     return RoIAlign_forward_cuda(input, rois, scale_h, scale_w,"
  ; "//     pooled_height, pooled_width, sampling_ratio);"
  ; "// #else"
  ; ("//     AT_ERROR(" ++ dquote ++ "Not compiled with GPU support" ++ dquote ++ ");")%string
  ; "// #endif"
  ; "//   }"
  ; "//   return RoIAlign_forward_cpu(input, rois, scale_h, scale_w, pooled_height,"
  ; "//   pooled_width, sampling_ratio);"
  ; "// }"
  ; ""
  ; "// at::Tensor RoIAlign_backward(const at::Tensor& grad,"
  ; "//                              const at::Tensor& rois,"
  ; "//                              const float scale_h,"
  ; "//                              const float scale_w,"
  ; "//                              const int pooled_height,"
  ; "//                              const int pooled_width,"
  ; "//                              const int batch_size,"
  ; "//                              const int channels,"
  ; "//                              const int height,"
  ; "//                              const int width,"
  ; "//                              const int sampling_ratio) {"
  ; "//   if (grad.type().is_cuda()) {"
  ; "// #ifdef WITH_CUDA"
  ; "//     return RoIAlign_backward_cuda(grad, rois, scale_h, scale_w,"
  ; "//     pooled_height, pooled_width, batch_size, channels, height, width,"
  ; "//     sampling_ratio);"
  ; "// #else"
  ; ("//     AT_ERROR(" ++ dquote ++ "Not compiled with GPU support" ++ dquote ++ ");")%string
  ; "// #endif"
  ; "//   }"
  ; "//   return RoIAlign_backward_cpu(grad, rois, scale_h, scale_w, pooled_height,"
  ; "//   pooled_width, batch_size, channels, height, width, sampling_ratio);"
  ; "// }"
  ].

(** *** Characters *)

Definition nl : ascii := ascii_of_nat 10.
Definition slash : ascii := "/"%char.
Definition star : ascii := "*"%char.
Definition backslash : ascii := "\"%char.
Definition dq : ascii := ascii_of_nat 34.
Definition sq : ascii := "'"%char.
Definition hash : ascii := "#"%char.

Definition is_space (c : ascii) : bool :=
  let n := nat_of_ascii c in
  (n =? 32)%nat || ((9 <=? n)%nat && (n <=? 13)%nat).

Definition is_ident_char (c : ascii) : bool :=
  let n := nat_of_ascii c in
  ((48 <=? n)%nat && (n <=? 57)%nat)
  || ((65 <=? n)%nat && (n <=? 90)%nat)
  || ((97 <=? n)%nat && (n <=? 122)%nat)
  || (n =? 95)%nat.

(** *** Lines *)

Definition chars (s : string) : list ascii := list_ascii_of_string s.

(** A line is disabled when it is empty or opens with the line-comment
    marker. *)
Definition disabled_line (l : list ascii) : bool :=
  match l with
  | [] => true
  | a :: b :: _ => Ascii.eqb a slash && Ascii.eqb b slash
  | _ => false
  end.

Definition no_newline (l : list ascii) : bool :=
  forallb (fun c => negb (Ascii.eqb c nl)) l.

(** The text of a file: its lines, a newline between two of them. *)
Fixpoint join (ls : list (list ascii)) : list ascii :=
  match ls with
  | [] => []
  | [l] => l
  | l :: rest => l ++ nl :: join rest
  end.

(** *** Translation phase 2: a backslash at the end of a line splices the
    next line onto it. *)
Fixpoint splice (cs : list ascii) : list ascii :=
  match cs with
  | c :: ((d :: rest') as rest) =>
      if Ascii.eqb c backslash && Ascii.eqb d nl
      then splice rest'
      else c :: splice rest
  | _ => cs
  end.

(** *** Translation phase 3, first half: comments go, the rest stays.

    One character at a time.  A line comment runs to the end of its line,
    a block comment to its closing marker and leaves one blank; string and
    character literals protect what they hold. *)
Inductive strip_state : Type :=
| Code            (* ordinary text *)
| Slash           (* a slash of ordinary text, not yet decided *)
| LineComment
| BlockComment
| BlockStar       (* a star inside a block comment *)
| Str | StrEsc    (* inside a string literal, after a backslash in it *)
| Chr | ChrEsc.   (* inside a character literal *)

Definition code_step (c : ascii) : strip_state * list ascii :=
  if Ascii.eqb c slash then (Slash, [])
  else if Ascii.eqb c dq then (Str, [c])
  else if Ascii.eqb c sq then (Chr, [c])
  else (Code, [c]).

Definition strip_step (st : strip_state) (c : ascii) : strip_state * list ascii :=
  match st with
  | Code => code_step c
  | Slash =>
      if Ascii.eqb c slash then (LineComment, [])
      else if Ascii.eqb c star then (BlockComment, [" "%char])
      else let (st', out) := code_step c in (st', slash :: out)
  | LineComment => if Ascii.eqb c nl then (Code, [nl]) else (LineComment, [])
  | BlockComment => if Ascii.eqb c star then (BlockStar, []) else (BlockComment, [])
  | BlockStar =>
      if Ascii.eqb c slash then (Code, [])
      else if Ascii.eqb c star then (BlockStar, [])
      else (BlockComment, [])
  | Str =>
      if Ascii.eqb c backslash then (StrEsc, [c])
      else if Ascii.eqb c dq then (Code, [c])
      else (Str, [c])
  | StrEsc => (Str, [c])
  | Chr =>
      if Ascii.eqb c backslash then (ChrEsc, [c])
      else if Ascii.eqb c sq then (Code, [c])
      else (Chr, [c])
  | ChrEsc => (Chr, [c])
  end.

Definition strip_flush (st : strip_state) : list ascii :=
  match st with
  | Slash => [slash]
  | _ => []
  end.

Fixpoint strip (st : strip_state) (cs : list ascii) : list ascii :=
  match cs with
  | [] => strip_flush st
  | c :: rest => let (st', out) := strip_step st c in out ++ strip st' rest
  end.

(** What the compiler is left with of a file given by its lines. *)
Definition preprocessed (ls : list string) : list ascii :=
  strip Code (splice (join (map chars ls))).

(** The characters of it that are not blank. *)
Definition active_code (ls : list string) : list ascii :=
  filter (fun c => negb (is_space c)) (preprocessed ls).

(** *** Translation phase 3, second half: tokens.

    Identifiers (and numbers) are runs of letters, digits and underscores;
    a string literal is one token; a line that opens with a hash is one
    directive; every other character that is not blank stands alone. *)
Inductive token : Type :=
| Ident (s : string)
| Punct (c : ascii)
| Literal (s : string)
| Directive (s : string).

Inductive lex_state : Type :=
| AtLineStart
| InLine
| InIdent (acc : list ascii)
| InDirective (acc : list ascii)
| InLiteral (acc : list ascii)
| InLiteralEsc (acc : list ascii).

Definition text (acc : list ascii) : string := string_of_list_ascii (rev acc).

Definition start_token (c : ascii) : lex_state * list token :=
  if is_ident_char c then (InIdent [c], [])
  else if Ascii.eqb c dq then (InLiteral [], [])
  else (InLine, [Punct c]).

Definition line_step (c : ascii) : lex_state * list token :=
  if Ascii.eqb c nl then (AtLineStart, [])
  else if is_space c then (InLine, [])
  else start_token c.

Definition lex_step (st : lex_state) (c : ascii) : lex_state * list token :=
  match st with
  | AtLineStart =>
      if Ascii.eqb c hash then (InDirective [], [])
      else if is_space c then (AtLineStart, [])
      else start_token c
  | InLine => line_step c
  | InIdent acc =>
      if is_ident_char c then (InIdent (c :: acc), [])
      else let (st', out) := line_step c in (st', Ident (text acc) :: out)
  | InDirective acc =>
      if Ascii.eqb c nl then (AtLineStart, [Directive (text acc)])
      else (InDirective (c :: acc), [])
  | InLiteral acc =>
      if Ascii.eqb c backslash then (InLiteralEsc (c :: acc), [])
      else if Ascii.eqb c dq then (InLine, [Literal (text acc)])
      else (InLiteral (c :: acc), [])
  | InLiteralEsc acc => (InLiteral (c :: acc), [])
  end.

Definition lex_flush (st : lex_state) : list token :=
  match st with
  | InIdent acc => [Ident (text acc)]
  | InDirective acc => [Directive (text acc)]
  | InLiteral acc | InLiteralEsc acc => [Literal (text acc)]
  | AtLineStart | InLine => []
  end.

Fixpoint lex (st : lex_state) (cs : list ascii) : list token :=
  match cs with
  | [] => lex_flush st
  | c :: rest => let (st', out) := lex_step st c in out ++ lex st' rest
  end.

Definition tokens (ls : list string) : list token :=
  lex AtLineStart (preprocessed ls).

(** *** Enabling the text: one level of comment markers is taken away
    (the marker and the blank after it). *)
Definition enable_line (l : string) : string :=
  match l with
  | String "/" (String "/" (String " " r)) => r
  | String "/" (String "/" r) => r
  | _ => l
  end.

Definition enabled (ls : list string) : list string := map enable_line ls.


(** *** Reading a function declaration off the tokens *)

Definition token_eqb (a b : token) : bool :=
  match a, b with
  | Ident x, Ident y => String.eqb x y
  | Punct c, Punct d => Ascii.eqb c d
  | Literal x, Literal y => String.eqb x y
  | Directive x, Directive y => String.eqb x y
  | _, _ => false
  end.

Fixpoint tokens_eqb (a b : list token) : bool :=
  match a, b with
  | [], [] => true
  | x :: a', y :: b' => token_eqb x y && tokens_eqb a' b'
  | _, _ => false
  end.

Definition is_punct (c : ascii) (t : token) : bool := token_eqb t (Punct c).
Definition is_ident (s : string) (t : token) : bool := token_eqb t (Ident s).

(** A declaration starts after a directive, a semicolon or a brace. *)
Definition boundary (t : token) : bool :=
  match t with
  | Directive _ => true
  | _ => is_punct ";" t || is_punct "{" t || is_punct "}" t
  end.

(** The first place where [name] stands before an opening parenthesis:
    the tokens since the last boundary (the return type) and the tokens
    after the parenthesis. *)
Fixpoint find_declaration (name : string) (since : list token) (ts : list token)
  : option (list token * list token) :=
  match ts with
  | [] => None
  | t :: rest =>
      if is_ident name t && match rest with p :: _ => is_punct "(" p | [] => false end
      then Some (rev since, tl rest)
      else find_declaration name (if boundary t then [] else t :: since) rest
  end.

(** The tokens up to the parenthesis that closes the list, split at the
    commas that stand outside inner parentheses; what follows the list. *)
Fixpoint parameter_chunks (depth : nat) (cur : list token) (ts : list token)
  : option (list (list token) * list token) :=
  match ts with
  | [] => None
  | t :: rest =>
      if is_punct ")" t then
        match depth with
        | O => Some ([rev cur], rest)
        | S d => parameter_chunks d (t :: cur) rest
        end
      else if is_punct "(" t then parameter_chunks (S depth) (t :: cur) rest
      else if is_punct "," t && Nat.eqb depth 0 then
        match parameter_chunks depth [] rest with
        | Some (chunks, after) => Some (rev cur :: chunks, after)
        | None => None
        end
      else parameter_chunks depth (t :: cur) rest
  end.

(** The part of a chunk from its last [const] on, and what stands before
    it; used to tell which words of a parameter list belong to no
    parameter ([stray_words]), not to read parameters. *)
Fixpoint from_last_const (ts : list token) : option (list token) :=
  match ts with
  | [] => None
  | t :: rest =>
      match from_last_const rest with
      | Some d => Some d
      | None => if is_ident "const" t then Some ts else None
      end
  end.

Definition before_last_const (ts : list token) : list token :=
  match from_last_const ts with
  | Some d => firstn (length ts - length d) ts
  | None => ts
  end.

(** The C++ types the header uses. *)
Inductive ctype : Type :=
| at_Tensor             (* at::Tensor *)
| const_at_Tensor_ref   (* const at::Tensor& *)
| const_float           (* const float *)
| const_int.            (* const int *)

Definition ctype_of (ts : list token) : option ctype :=
  if tokens_eqb ts [Ident "at"; Punct ":"; Punct ":"; Ident "Tensor"]
  then Some at_Tensor
  else if tokens_eqb ts [Ident "const"; Ident "at"; Punct ":"; Punct ":"; Ident "Tensor"; Punct "&"]
  then Some const_at_Tensor_ref
  else if tokens_eqb ts [Ident "const"; Ident "float"] then Some const_float
  else if tokens_eqb ts [Ident "const"; Ident "int"] then Some const_int
  else None.

(** A parameter: the whole chunk is one of the types above, then one
    name.  A chunk with anything else in it is no parameter. *)
Definition parameter (chunk : list token) : option (ctype * string) :=
  match rev chunk with
  | Ident n :: ty =>
      match ctype_of (rev ty) with
      | Some c => Some (c, n)
      | None => None
      end
  | _ => None
  end.

Fixpoint all_some {A : Type} (l : list (option A)) : option (list A) :=
  match l with
  | [] => Some []
  | Some a :: rest =>
      match all_some rest with
      | Some r => Some (a :: r)
      | None => None
      end
  | None :: _ => None
  end.

Record signature : Type := {
  returns : ctype;
  parameters : list (ctype * string)
}.

(** After the parameter list a declaration ends or its body opens. *)
Definition closes_declarator (ts : list token) : bool :=
  match ts with
  | t :: _ => is_punct "{" t || is_punct ";" t
  | [] => false
  end.

(** The declaration of [name]: a return type, the name, a list of
    parameters and nothing else up to the body or the semicolon. *)
Definition declaration (name : string) (ts : list token) : option signature :=
  match find_declaration name [] ts with
  | Some (ret, after) =>
      match ctype_of ret, parameter_chunks 0 [] after with
      | Some r, Some (chunks, rest) =>
          if closes_declarator rest then
            match all_some (map parameter chunks) with
            | Some ps => Some {| returns := r; parameters := ps |}
            | None => None
            end
          else None
      | _, _ => None
      end
  | None => None
  end.

(** The words of a parameter list that belong to no parameter, and the
    tokens between the list and the body. *)
Definition stray_words (name : string) (ts : list token) : list token :=
  match find_declaration name [] ts with
  | Some (_, after) =>
      match parameter_chunks 0 [] after with
      | Some (chunks, rest) =>
          concat (map before_last_const chunks)
          ++ (fix upto (l : list token) : list token :=
                match l with
                | [] => []
                | t :: l' => if boundary t then [] else t :: upto l'
                end) rest
      | None => []
      end
  | None => []
  end.

(** *** Texts with nothing in them *)

Definition blank (cs : list ascii) : bool := forallb is_space cs.

(** Texts that the comment remover empties: a sequence of empty lines and
    of line comments. *)
Inductive inert : list ascii -> Prop :=
| inert_end : inert []
| inert_blank T : inert T -> inert (nl :: T)
| inert_last body :
    no_newline body = true -> inert (slash :: slash :: body)
| inert_comment body T :
    no_newline body = true -> inert T ->
    inert (slash :: slash :: body ++ nl :: T).

End Text.

(** ** The dispatch *)

Module Dispatch.

(** [const float] and [const int] arguments; the shim computes nothing
    with them, it hands them on. *)
Definition float : Type := spec_float.
Definition int : Type := Z.

Section Shim.

(** at::Tensor belongs to the tensor library; of a tensor the shim asks
    one thing, [t.type().is_cuda()]. *)
Variable Tensor : Type.
Variable is_cuda : Tensor -> bool.

(** The kernels of cpu/vision.h and cuda/vision.h are outside the file.
    A call of one is named by the kernel and the arguments it is given. *)
Inductive kernel_call : Type :=
| RoIAlign_forward_cpu
    (input rois : Tensor) (scale_h scale_w : float)
    (pooled_height pooled_width sampling_ratio : int)
| RoIAlign_forward_cuda
    (input rois : Tensor) (scale_h scale_w : float)
    (pooled_height pooled_width sampling_ratio : int)
| RoIAlign_backward_cpu
    (grad rois : Tensor) (scale_h scale_w : float)
    (pooled_height pooled_width batch_size channels height width
       sampling_ratio : int)
| RoIAlign_backward_cuda
    (grad rois : Tensor) (scale_h scale_w : float)
    (pooled_height pooled_width batch_size channels height width
       sampling_ratio : int).

(** What a kernel gives back: a tensor, or an exception of its own. *)
Inductive result : Type :=
| Value (t : Tensor)
| Exception (what : string).

(** What a run does, in order. *)
Inductive event : Type :=
| Is_cuda (t : Tensor)          (* t.type().is_cuda() is evaluated *)
| Call (k : kernel_call)        (* a kernel is called *)
| At_error (what : string).     (* AT_ERROR is reached *)

(** How a statement ends. *)
Inductive completion : Type :=
| Fallthrough
| Return (t : Tensor)
| Throw (what : string).

Definition stmt : Type := completion * list event.
Definition outcome (s : stmt) : completion := fst s.
Definition trace (s : stmt) : list event := snd s.

(** The build: whether WITH_CUDA is defined, and what the kernels do. *)
Variable WITH_CUDA : bool.
Variable impl : kernel_call -> result.

Definition completion_of (r : result) : completion :=
  match r with
  | Value t => Return t
  | Exception what => Throw what
  end.

(** [return k(...);] *)
Definition return_call (k : kernel_call) : stmt :=
  (completion_of (impl k), [Call k]).

(** [AT_ERROR(what);] *)
Definition AT_ERROR (what : string) : stmt := (Throw what, [At_error what]).

(** [#ifdef WITH_CUDA a #else b #endif] *)
Definition ifdef_WITH_CUDA (a b : stmt) : stmt := if WITH_CUDA then a else b.

(** [if (t.type().is_cuda()) { body }] *)
Definition if_is_cuda (t : Tensor) (body : stmt) : stmt :=
  if is_cuda t
  then (outcome body, Is_cuda t :: trace body)
  else (Fallthrough, [Is_cuda t]).

(** [s1 s2]: the second statement runs when the first falls through. *)
Definition seq (s1 s2 : stmt) : stmt :=
  match outcome s1 with
  | Fallthrough => (outcome s2, trace s1 ++ trace s2)
  | _ => s1
  end.

Notation "s1 ;; s2" := (seq s1 s2) (at level 61, right associativity).

(** RoIAlign.h, lines 10 to 31. *)
Definition RoIAlign_forward
    (input rois : Tensor) (scale_h scale_w : float)
    (pooled_height pooled_width sampling_ratio : int) : stmt :=
  if_is_cuda input
    (ifdef_WITH_CUDA
       (return_call (RoIAlign_forward_cuda input rois scale_h scale_w
                       pooled_height pooled_width sampling_ratio))
       (AT_ERROR "Not compiled with GPU support")) ;;
  return_call (RoIAlign_forward_cpu input rois scale_h scale_w pooled_height
                 pooled_width sampling_ratio).

(** RoIAlign.h, lines 33 to 55. *)
Definition RoIAlign_backward
    (grad rois : Tensor) (scale_h scale_w : float)
    (pooled_height pooled_width batch_size channels height width
       sampling_ratio : int) : stmt :=
  if_is_cuda grad
    (ifdef_WITH_CUDA
       (return_call (RoIAlign_backward_cuda grad rois scale_h scale_w
                       pooled_height pooled_width batch_size channels height
                       width sampling_ratio))
       (AT_ERROR "Not compiled with GPU support")) ;;
  return_call (RoIAlign_backward_cpu grad rois scale_h scale_w pooled_height
                 pooled_width batch_size channels height width sampling_ratio).

(** A call of either entry point, and its run. *)
Inductive entry_call : Type :=
| forward_call
    (input rois : Tensor) (scale_h scale_w : float)
    (pooled_height pooled_width sampling_ratio : int)
| backward_call
    (grad rois : Tensor) (scale_h scale_w : float)
    (pooled_height pooled_width batch_size channels height width
       sampling_ratio : int).

Definition run (c : entry_call) : stmt :=
  match c with
  | forward_call input rois scale_h scale_w pooled_height pooled_width
      sampling_ratio =>
      RoIAlign_forward input rois scale_h scale_w pooled_height pooled_width
        sampling_ratio
  | backward_call grad rois scale_h scale_w pooled_height pooled_width
      batch_size channels height width sampling_ratio =>
      RoIAlign_backward grad rois scale_h scale_w pooled_height pooled_width
        batch_size channels height width sampling_ratio
  end.

(** The first tensor argument: input, or grad. *)
Definition first_tensor (c : entry_call) : Tensor :=
  match c with
  | forward_call input _ _ _ _ _ _ => input
  | backward_call grad _ _ _ _ _ _ _ _ _ _ => grad
  end.

(** The CPU and the CUDA kernel of an entry point, on its arguments as
    they came. *)
Definition cpu_kernel (c : entry_call) : kernel_call :=
  match c with
  | forward_call input rois scale_h scale_w pooled_height pooled_width
      sampling_ratio =>
      RoIAlign_forward_cpu input rois scale_h scale_w pooled_height
        pooled_width sampling_ratio
  | backward_call grad rois scale_h scale_w pooled_height pooled_width
      batch_size channels height width sampling_ratio =>
      RoIAlign_backward_cpu grad rois scale_h scale_w pooled_height
        pooled_width batch_size channels height width sampling_ratio
  end.

Definition cuda_kernel (c : entry_call) : kernel_call :=
  match c with
  | forward_call input rois scale_h scale_w pooled_height pooled_width
      sampling_ratio =>
      RoIAlign_forward_cuda input rois scale_h scale_w pooled_height
        pooled_width sampling_ratio
  | backward_call grad rois scale_h scale_w pooled_height pooled_width
      batch_size channels height width sampling_ratio =>
      RoIAlign_backward_cuda grad rois scale_h scale_w pooled_height
        pooled_width batch_size channels height width sampling_ratio
  end.

(** *** What is observed of a run *)

Fixpoint kernel_calls (tr : list event) : list kernel_call :=
  match tr with
  | [] => []
  | Call k :: rest => k :: kernel_calls rest
  | _ :: rest => kernel_calls rest
  end.

Fixpoint errors_raised (tr : list event) : list string :=
  match tr with
  | [] => []
  | At_error what :: rest => what :: errors_raised rest
  | _ :: rest => errors_raised rest
  end.

Fixpoint device_checks (tr : list event) : list Tensor :=
  match tr with
  | [] => []
  | Is_cuda t :: rest => t :: device_checks rest
  | _ :: rest => device_checks rest
  end.

Inductive branch : Type :=
| cuda_branch    (* the CUDA kernel is called *)
| cpu_branch     (* the CPU kernel is called *)
| abort_branch.  (* AT_ERROR *)

Definition on_cuda (k : kernel_call) : bool :=
  match k with
  | RoIAlign_forward_cuda _ _ _ _ _ _ _
  | RoIAlign_backward_cuda _ _ _ _ _ _ _ _ _ _ _ => true
  | RoIAlign_forward_cpu _ _ _ _ _ _ _
  | RoIAlign_backward_cpu _ _ _ _ _ _ _ _ _ _ _ => false
  end.

(** The branch a run took: its first kernel call or error. *)
Fixpoint branch_taken (tr : list event) : option branch :=
  match tr with
  | [] => None
  | Call k :: _ => Some (if on_cuda k then cuda_branch else cpu_branch)
  | At_error _ :: _ => Some abort_branch
  | Is_cuda _ :: rest => branch_taken rest
  end.

(** *** The dispatch in the words of the specification: a device-type
    check selects the CUDA or the CPU code path, and the kernel of that
    path is applied to the arguments. *)
Inductive code_path : Type := cuda_path | cpu_path.

Definition selected_path (c : entry_call) : code_path :=
  if is_cuda (first_tensor c) then cuda_path else cpu_path.

Definition selected_kernel (c : entry_call) : kernel_call :=
  match selected_path c with
  | cuda_path => cuda_kernel c
  | cpu_path => cpu_kernel c
  end.

(** The CUDA path has a kernel only in a build with WITH_CUDA. *)
Definition path_compiled (p : code_path) : bool :=
  match p with
  | cuda_path => WITH_CUDA
  | cpu_path => true
  end.

End Shim.

Arguments RoIAlign_forward_cpu {Tensor}.
Arguments RoIAlign_forward_cuda {Tensor}.
Arguments RoIAlign_backward_cpu {Tensor}.
Arguments RoIAlign_backward_cuda {Tensor}.
Arguments Value {Tensor}.
Arguments Exception {Tensor}.
Arguments Is_cuda {Tensor}.
Arguments Call {Tensor}.
Arguments At_error {Tensor}.
Arguments Fallthrough {Tensor}.
Arguments Return {Tensor}.
Arguments Throw {Tensor}.
Arguments forward_call {Tensor}.
Arguments backward_call {Tensor}.
Arguments outcome {Tensor}.
Arguments trace {Tensor}.
Arguments completion_of {Tensor}.
Arguments return_call {Tensor}.
Arguments AT_ERROR {Tensor}.
Arguments seq {Tensor}.
Arguments if_is_cuda {Tensor}.
Arguments ifdef_WITH_CUDA {Tensor}.
Arguments RoIAlign_forward {Tensor}.
Arguments RoIAlign_backward {Tensor}.
Arguments run {Tensor}.
Arguments first_tensor {Tensor}.
Arguments cpu_kernel {Tensor}.
Arguments cuda_kernel {Tensor}.
Arguments kernel_calls {Tensor}.
Arguments errors_raised {Tensor}.
Arguments device_checks {Tensor}.
Arguments on_cuda {Tensor}.
Arguments branch_taken {Tensor}.
Arguments selected_path {Tensor}.
Arguments selected_kernel {Tensor}.

(** *** A small tensor type to run the shim on *)

Inductive device : Type := cpu | cuda.

Record tensor : Type := { on : device; numel : Z }.

Definition tensor_is_cuda (t : tensor) : bool :=
  match on t with
  | cuda => true
  | cpu => false
  end.

Definition host_tensor : tensor := {| on := cpu; numel := 12%Z |}.
Definition gpu_tensor : tensor := {| on := cuda; numel := 12%Z |}.

(** Kernels that give their first tensor back. *)
Definition echo_kernels (k : kernel_call tensor) : result tensor :=
  match k with
  | RoIAlign_forward_cpu input _ _ _ _ _ _
  | RoIAlign_forward_cuda input _ _ _ _ _ _ => Value input
  | RoIAlign_backward_cpu grad _ _ _ _ _ _ _ _ _ _
  | RoIAlign_backward_cuda grad _ _ _ _ _ _ _ _ _ _ => Value grad
  end.

(** Kernels that throw. *)
Definition refusing_kernels (k : kernel_call tensor) : result tensor :=
  Exception "kernel refused".

Definition half : float := S754_finite false 1 (-1)%Z.

Definition forward_on (t rois : tensor) : entry_call tensor :=
  forward_call t rois half half 7%Z 7%Z 2%Z.

Definition backward_on (t rois : tensor) : entry_call tensor :=
  backward_call t rois half half 7%Z 7%Z 1%Z 256%Z 50%Z 50%Z 2%Z.

End Dispatch.

(** ** The bodies, read off the text *)

Module Body.

Import Text Dispatch.

(** The statements the two bodies are made of. *)
Inductive cstmt : Type :=
| c_if_is_cuda (x : string) (body : list cstmt)
    (* if (x.type().is_cuda()) { body } *)
| c_ifdef (macro : string) (yes no : list cstmt)
    (* #ifdef macro yes #else no #endif *)
| c_return_call (f : string) (args : list string)
    (* return f(args); *)
| c_AT_ERROR (what : string).
    (* AT_ERROR("what"); *)

Record function_definition : Type := {
  fn_signature : signature;
  fn_body : list cstmt
}.

(** *** Parsing *)

(** The words of a directive. *)
Fixpoint split_words (acc cs : list ascii) : list string :=
  match cs with
  | [] => match acc with [] => [] | _ => [text acc] end
  | c :: rest =>
      if is_space c
      then match acc with [] => [] | _ => [text acc] end ++ split_words [] rest
      else split_words (c :: acc) rest
  end.

Definition words (d : string) : list string := split_words [] (chars d).

Definition directive_is (k : string) (d : string) : bool :=
  match words d with
  | w :: _ => String.eqb w k
  | [] => false
  end.

(** The tokens after a given run of tokens. *)
Fixpoint expect (pat ts : list token) : option (list token) :=
  match pat with
  | [] => Some ts
  | p :: pat' =>
      match ts with
      | t :: ts' => if token_eqb p t then expect pat' ts' else None
      | [] => None
      end
  end.

(** The arguments of a call, after its opening parenthesis: names
    between commas, up to the closing parenthesis. *)
Fixpoint parse_args (ts : list token) : option (list string * list token) :=
  match ts with
  | Ident a :: Punct p :: rest =>
      if Ascii.eqb p ")" then Some ([a], rest)
      else if Ascii.eqb p "," then
        match parse_args rest with
        | Some (more, rest') => Some (a :: more, rest')
        | None => None
        end
      else None
  | _ => None
  end.

Definition parse_call_args (ts : list token) : option (list string * list token) :=
  match expect [Punct ")"] ts with
  | Some rest => Some ([], rest)
  | None => parse_args ts
  end.

(** One statement, given the parser of the blocks inside it. *)
Definition parse_stmt
    (blk : list token -> option (list cstmt * list token))
    (ts : list token) : option (cstmt * list token) :=
  match ts with
  | Directive d :: rest =>
      match words d with
      | [k; m] =>
          if String.eqb k "ifdef" then
            match blk rest with
            | Some (yes, Directive e :: rest1) =>
                if directive_is "else" e then
                  match blk rest1 with
                  | Some (no, Directive e2 :: rest2) =>
                      if directive_is "endif" e2
                      then Some (c_ifdef m yes no, rest2)
                      else None
                  | _ => None
                  end
                else if directive_is "endif" e
                then Some (c_ifdef m yes [], rest1)
                else None
            | _ => None
            end
          else None
      | _ => None
      end
  | Ident w :: rest =>
      if String.eqb w "if" then
        match expect [Punct "("] rest with
        | Some (Ident x :: rest1) =>
            match expect [Punct "."; Ident "type"; Punct "("; Punct ")";
                          Punct "."; Ident "is_cuda"; Punct "("; Punct ")";
                          Punct ")"; Punct "{"] rest1 with
            | Some rest2 =>
                match blk rest2 with
                | Some (body, rest3) =>
                    match expect [Punct "}"] rest3 with
                    | Some rest4 => Some (c_if_is_cuda x body, rest4)
                    | None => None
                    end
                | None => None
                end
            | None => None
            end
        | _ => None
        end
      else if String.eqb w "return" then
        match rest with
        | Ident f :: rest1 =>
            match expect [Punct "("] rest1 with
            | Some rest2 =>
                match parse_call_args rest2 with
                | Some (args, rest3) =>
                    match expect [Punct ";"] rest3 with
                    | Some rest4 => Some (c_return_call f args, rest4)
                    | None => None
                    end
                | None => None
                end
            | None => None
            end
        | _ => None
        end
      else if String.eqb w "AT_ERROR" then
        match expect [Punct "("] rest with
        | Some (Literal s :: rest1) =>
            match expect [Punct ")"; Punct ";"] rest1 with
            | Some rest2 => Some (c_AT_ERROR s, rest2)
            | None => None
            end
        | _ => None
        end
      else None
  | _ => None
  end.

(** A block ends at a closing brace, at [#else] or [#endif], or with the
    text. *)
Definition ends_block (ts : list token) : bool :=
  match ts with
  | [] => true
  | Directive d :: _ => directive_is "else" d || directive_is "endif" d
  | t :: _ => is_punct "}" t
  end.

Fixpoint parse_block (fuel : nat) (ts : list token)
  : option (list cstmt * list token) :=
  match fuel with
  | O => None
  | S fuel' =>
      if ends_block ts then Some ([], ts)
      else
        match parse_stmt (parse_block fuel') ts with
        | Some (s, rest) =>
            match parse_block fuel' rest with
            | Some (more, rest') => Some (s :: more, rest')
            | None => None
            end
        | None => None
        end
  end.

(** A block in braces and nothing after it. *)
Definition parse_braced_block (ts : list token) : option (list cstmt) :=
  match expect [Punct "{"] ts with
  | Some body_ts =>
      match parse_block (S (length body_ts)) body_ts with
      | Some (body, rest) =>
          match rest with
          | [t] => if is_punct "}" t then Some body else None
          | _ => None
          end
      | None => None
      end
  | None => None
  end.

(** The lines [first] to [last] of a text, counted from 1. *)
Definition lines_between (first last : nat) (ls : list string) : list string :=
  firstn (S last - first) (skipn (first - 1) ls).

(** The definition of [name]: its declaration, and right after the
    parameter list its body in braces. *)
Definition parse_function (name : string) (ts : list token)
  : option function_definition :=
  match declaration name ts, find_declaration name [] ts with
  | Some sig, Some (_, after) =>
      match parameter_chunks 0 [] after with
      | Some (_, rest) =>
          match expect [Punct "{"] rest with
          | Some body_ts =>
              match parse_block (S (length body_ts)) body_ts with
              | Some (body, rest') =>
                  match expect [Punct "}"] rest' with
                  | Some _ => Some {| fn_signature := sig; fn_body := body |}
                  | None => None
                  end
              | None => None
              end
          | None => None
          end
      | None => None
      end
  | _, _ => None
  end.

(** The shape both bodies have: the device check on [x] guards the CUDA
    call or the error, the CPU call follows. *)
Definition dispatch_shape (x cuda_name cpu_name : string) (args : list string)
  : list cstmt :=
  [ c_if_is_cuda x
      [ c_ifdef "WITH_CUDA"
          [ c_return_call cuda_name args ]
          [ c_AT_ERROR "Not compiled with GPU support" ] ];
    c_return_call cpu_name args ].

(** The definition of [name] in a text checks its first parameter and
    hands all its parameters, in their declared order, to the kernels
    named after it. *)
Definition has_dispatch_shape (name : string) (ts : list token) : Prop :=
  exists fd x,
    parse_function name ts = Some fd /\
    hd_error (map snd (parameters (fn_signature fd))) = Some x /\
    fn_body fd =
      dispatch_shape x (name ++ "_cuda")%string (name ++ "_cpu")%string
        (map snd (parameters (fn_signature fd))).

(** *** Conditional compilation on the tokens *)

(** The tokens that reach the compiler: those of the branches whose
    conditions hold; [stack] holds the conditions of the branches that
    are open. *)
Fixpoint compiled (defined : string -> bool) (stack : list bool)
    (ts : list token) : list token :=
  match ts with
  | [] => []
  | Directive d :: rest =>
      match words d with
      | [k; m] =>
          if String.eqb k "ifdef"
          then compiled defined (defined m :: stack) rest
          else if String.eqb k "ifndef"
          then compiled defined (negb (defined m) :: stack) rest
          else if forallb (fun b => b) stack
          then Directive d :: compiled defined stack rest
          else compiled defined stack rest
      | [k] =>
          if String.eqb k "else"
          then compiled defined
                 (match stack with b :: s => negb b :: s | [] => [] end) rest
          else if String.eqb k "endif"
          then compiled defined (tl stack) rest
          else if forallb (fun b => b) stack
          then Directive d :: compiled defined stack rest
          else compiled defined stack rest
      | _ =>
          if forallb (fun b => b) stack
          then Directive d :: compiled defined stack rest
          else compiled defined stack rest
      end
  | t :: rest =>
      if forallb (fun b => b) stack
      then t :: compiled defined stack rest
      else compiled defined stack rest
  end.

(** The macros a text tests. *)
Fixpoint tested_macros (ts : list token) : list string :=
  match ts with
  | [] => []
  | Directive d :: rest =>
      match words d with
      | [k; m] =>
          if String.eqb k "ifdef" || String.eqb k "ifndef"
          then m :: tested_macros rest
          else tested_macros rest
      | _ => tested_macros rest
      end
  | _ :: rest => tested_macros rest
  end.

(** The headers a token list includes, without their quotes. *)
Definition unquote (s : string) : string :=
  string_of_list_ascii
    (filter (fun c => negb (Ascii.eqb c dq)) (list_ascii_of_string s)).

Fixpoint includes (ts : list token) : list string :=
  match ts with
  | [] => []
  | Directive d :: rest =>
      match words d with
      | [k; h] =>
          if String.eqb k "include" then unquote h :: includes rest
          else includes rest
      | _ => includes rest
      end
  | _ :: rest => includes rest
  end.

Definition mentions (name : string) (ts : list token) : bool :=
  existsb (is_ident name) ts.

(** *** Kernels by direction *)

Definition forward_kernel {Tensor : Type} (k : kernel_call Tensor) : bool :=
  match k with
  | RoIAlign_forward_cpu _ _ _ _ _ _ _
  | RoIAlign_forward_cuda _ _ _ _ _ _ _ => true
  | RoIAlign_backward_cpu _ _ _ _ _ _ _ _ _ _ _
  | RoIAlign_backward_cuda _ _ _ _ _ _ _ _ _ _ _ => false
  end.

Definition forward_entry {Tensor : Type} (c : entry_call Tensor) : bool :=
  match c with
  | forward_call _ _ _ _ _ _ _ => true
  | backward_call _ _ _ _ _ _ _ _ _ _ _ => false
  end.

(** Kernels of a machine without a device: the CUDA kernels throw, the
    CPU kernels give their first tensor back. *)
Definition host_only_kernels (k : kernel_call tensor) : result tensor :=
  if on_cuda k then Exception "no CUDA device" else echo_kernels k.

End Body.

Import Text Dispatch Body.

(** ** Facts about disabled text *)

Section DisabledText.

Lemma no_newline_app a b :
  no_newline (a ++ b) = no_newline a && no_newline b.
Proof. unfold no_newline. apply forallb_app. Qed.

Lemma no_newline_cons c l :
  no_newline (c :: l) = negb (Ascii.eqb c nl) && no_newline l.
Proof. reflexivity. Qed.

Lemma inert_extend body T :
  no_newline body = true -> inert T -> inert (slash :: slash :: body ++ T).
Proof.
  intros Hb HT. destruct HT as [ | T HT | body2 H2 | body2 T H2 HT ].
  - rewrite app_nil_r. now apply inert_last.
  - now apply inert_comment.
  - apply inert_last. rewrite no_newline_app, Hb. exact H2.
  - replace (body ++ slash :: slash :: body2 ++ nl :: T)
      with ((body ++ slash :: slash :: body2) ++ nl :: T)
      by (rewrite <- app_assoc; reflexivity).
    apply inert_comment; [ | exact HT ].
    rewrite no_newline_app, Hb. exact H2.
Qed.

Lemma splice_cons_plain c X :
  Ascii.eqb c backslash = false -> splice (c :: X) = c :: splice X.
Proof.
  intros Hc. destruct X as [ | d X ]; [ reflexivity | ].
  simpl. rewrite Hc. reflexivity.
Qed.

Lemma splice_whole_line l : no_newline l = true -> splice l = l.
Proof.
  induction l as [ | c l IH ]; [ reflexivity | ].
  intros Hl. rewrite no_newline_cons in Hl.
  apply andb_true_iff in Hl as [ _ Hl ].
  destruct l as [ | d r ]; [ reflexivity | ].
  specialize (IH Hl). rewrite no_newline_cons in Hl.
  apply andb_true_iff in Hl as [ Hd _ ].
  apply negb_true_iff in Hd.
  change (splice (c :: d :: r))
    with (if Ascii.eqb c backslash && Ascii.eqb d nl
          then splice r else c :: splice (d :: r)).
  rewrite Hd, andb_false_r, IH. reflexivity.
Qed.

(** Splicing a line that is followed by another: its newline stays, or a
    closing backslash takes it away. *)
Lemma splice_line body X :
  no_newline body = true ->
  exists body',
    no_newline body' = true /\
    (splice (body ++ nl :: X) = body' ++ nl :: splice X \/
     splice (body ++ nl :: X) = body' ++ splice X).
Proof.
  induction body as [ | c body IH ]; intros Hb.
  - exists []. split; [ reflexivity | left ].
    apply splice_cons_plain. reflexivity.
  - rewrite no_newline_cons in Hb. apply andb_true_iff in Hb as [ Hc Hb ].
    destruct (IH Hb) as (b' & Hb' & Hsp).
    destruct body as [ | d body ].
    + simpl app.
      change (splice (c :: nl :: X))
        with (if Ascii.eqb c backslash && Ascii.eqb nl nl
              then splice X else c :: splice (nl :: X)).
      destruct (Ascii.eqb c backslash) eqn:Ec; simpl andb; cbv iota.
      * exists []. split; [ reflexivity | right; reflexivity ].
      * exists [c]. split.
        -- rewrite no_newline_cons, Hc. reflexivity.
        -- left. rewrite splice_cons_plain by reflexivity. reflexivity.
    + assert (Hd : Ascii.eqb d nl = false).
      { rewrite no_newline_cons in Hb. apply andb_true_iff in Hb as [ Hd _ ].
        now apply negb_true_iff in Hd. }
      change (splice ((c :: d :: body) ++ nl :: X))
        with (if Ascii.eqb c backslash && Ascii.eqb d nl
              then splice (body ++ nl :: X)
              else c :: splice ((d :: body) ++ nl :: X)).
      rewrite Hd, andb_false_r.
      exists (c :: b'). split.
      * rewrite no_newline_cons, Hc. exact Hb'.
      * destruct Hsp as [ -> | -> ]; [ left | right ]; reflexivity.
Qed.

Lemma disabled_line_shape l :
  disabled_line l = true -> l = [] \/ exists body, l = slash :: slash :: body.
Proof.
  destruct l as [ | a [ | b body ] ]; simpl; intros H;
    [ now left | discriminate | right ].
  apply andb_true_iff in H as [ Ha Hb ].
  apply Ascii.eqb_eq in Ha, Hb. subst. now exists body.
Qed.

(** A file of disabled lines is inert once spliced. *)
Lemma disabled_lines_inert ls :
  forallb disabled_line ls = true ->
  forallb no_newline ls = true ->
  inert (splice (join ls)).
Proof.
  induction ls as [ | l rest IH ]; intros Hd Hn; [ constructor | ].
  simpl in Hd, Hn.
  apply andb_true_iff in Hd as [ Hl Hd ].
  apply andb_true_iff in Hn as [ Hnl Hn ].
  specialize (IH Hd Hn).
  destruct (disabled_line_shape l Hl) as [ -> | (body & ->) ].
  - destruct rest as [ | l2 rest ]; [ constructor | ].
    change (join ([] :: l2 :: rest)) with (nl :: join (l2 :: rest)).
    rewrite splice_cons_plain by reflexivity. now constructor.
  - assert (Hbody : no_newline body = true).
    { do 2 (rewrite no_newline_cons in Hnl;
            apply andb_true_iff in Hnl as [ _ Hnl ]). exact Hnl. }
    destruct rest as [ | l2 rest ].
    + simpl join. rewrite splice_whole_line by exact Hnl. now constructor.
    + change (join ((slash :: slash :: body) :: l2 :: rest))
        with (slash :: slash :: body ++ nl :: join (l2 :: rest)).
      do 2 rewrite splice_cons_plain by reflexivity.
      destruct (splice_line body (join (l2 :: rest)) Hbody)
        as (b' & Hb' & [ -> | -> ]).
      * now constructor.
      * now apply inert_extend.
Qed.

Lemma strip_line_comment_body body T :
  no_newline body = true ->
  strip LineComment (body ++ T) = strip LineComment T.
Proof.
  induction body as [ | c body IH ]; intros Hb; [ reflexivity | ].
  rewrite no_newline_cons in Hb. apply andb_true_iff in Hb as [ Hc Hb ].
  apply negb_true_iff in Hc.
  simpl. rewrite Hc. simpl. now apply IH.
Qed.

Lemma strip_open_comment T :
  strip Code (slash :: slash :: T) = strip LineComment T.
Proof. reflexivity. Qed.

(** Nothing but blanks is left of an inert text. *)
Lemma strip_inert T : inert T -> blank (strip Code T) = true.
Proof.
  induction 1 as [ | T HT IH | body Hb | body T Hb HT IH ].
  - reflexivity.
  - exact IH.
  - rewrite strip_open_comment.
    rewrite <- (app_nil_r body), strip_line_comment_body by exact Hb.
    reflexivity.
  - rewrite strip_open_comment, strip_line_comment_body by exact Hb.
    exact IH.
Qed.

Lemma blank_no_hash c : is_space c = true -> Ascii.eqb c hash = false.
Proof.
  intros Hc. destruct (Ascii.eqb c hash) eqn:E; [ | reflexivity ].
  apply Ascii.eqb_eq in E. subst. discriminate.
Qed.

(** Blanks at the start of a line give no token. *)
Lemma lex_blank cs : blank cs = true -> lex AtLineStart cs = [].
Proof.
  induction cs as [ | c cs IH ]; [ reflexivity | ].
  intros H. simpl in H. apply andb_true_iff in H as [ Hc H ].
  simpl. rewrite (blank_no_hash c Hc), Hc. simpl. now apply IH.
Qed.

Lemma filter_blank cs :
  blank cs = true -> filter (fun c => negb (is_space c)) cs = [].
Proof.
  induction cs as [ | c cs IH ]; [ reflexivity | ].
  intros H. simpl in H. apply andb_true_iff in H as [ Hc H ].
  simpl. rewrite Hc. simpl. now apply IH.
Qed.

(** A file whose every line is disabled leaves the compiler nothing. *)
Lemma disabled_file_empty (ls : list string) :
  forallb disabled_line (map chars ls) = true ->
  forallb no_newline (map chars ls) = true ->
  active_code ls = [] /\ tokens ls = [].
Proof.
  intros Hd Hn.
  pose proof (strip_inert _ (disabled_lines_inert _ Hd Hn)) as Hb.
  split.
  - now apply filter_blank.
  - now apply lex_blank.
Qed.

End DisabledText.

(** C4. Every line of RoIAlign.h is empty or a line comment; once the
    comments are removed no character that is not blank and no token is
    left, so compiling the file declares nothing: neither entry point is
    found in it, while once the text is enabled the name RoIAlign_forward
    stands before a parameter list and RoIAlign_backward is declared. *)
Theorem RoIAlign_h_has_no_active_code :
  forallb disabled_line (map chars RoIAlign_h) = true /\
  active_code RoIAlign_h = [] /\
  tokens RoIAlign_h = [] /\
  declaration "RoIAlign_forward" (tokens RoIAlign_h) = None /\
  declaration "RoIAlign_backward" (tokens RoIAlign_h) = None /\
  find_declaration "RoIAlign_forward" [] (tokens (enabled RoIAlign_h))
    <> None /\
  declaration "RoIAlign_backward" (tokens (enabled RoIAlign_h)) <> None.
Proof.
  assert (Hd : forallb disabled_line (map chars RoIAlign_h) = true)
    by reflexivity.
  assert (Hn : forallb no_newline (map chars RoIAlign_h) = true)
    by reflexivity.
  destruct (disabled_file_empty RoIAlign_h Hd Hn) as [ Ha Ht ].
  split; [ exact Hd | ].
  split; [ exact Ha | ].
  split; [ exact Ht | ].
  rewrite Ht.
  split; [ reflexivity | ].
  split; [ reflexivity | ].
  split; vm_compute; discriminate.
Qed.

(** C5. The claim gives RoIAlign_forward seven parameters.  The enabled
    text of lines 10 to 20 does not declare them: the name stands before
    a parameter list, but the list holds the words of comments that were
    reflowed into it and more of them stand between the list and the
    body, 32 tokens in all, so the text is no declaration.  The sibling
    RoIAlign_backward, lines 33 to 43, is declared, with eleven
    parameters. *)
Theorem RoIAlign_forward_is_not_declared :
  find_declaration "RoIAlign_forward" [] (tokens (enabled RoIAlign_h))
    <> None /\
  declaration "RoIAlign_forward" (tokens (enabled RoIAlign_h)) = None /\
  length (stray_words "RoIAlign_forward" (tokens (enabled RoIAlign_h))) = 32 /\
  (exists sig,
     declaration "RoIAlign_backward" (tokens (enabled RoIAlign_h)) = Some sig /\
     length (parameters sig) = 11).
Proof.
  split; [ vm_compute; discriminate | ].
  split; [ vm_compute; reflexivity | ].
  split; [ vm_compute; reflexivity | ].
  eexists. split; [ vm_compute; reflexivity | reflexivity ].
Qed.

(** C6. Enabled, RoIAlign_backward is declared with the eleven parameters
    grad, rois, scale_h, scale_w, pooled_height, pooled_width, batch_size,
    channels, height, width and sampling_ratio, in that order, and its
    return type is at::Tensor. *)
Theorem RoIAlign_backward_signature :
  exists sig,
    declaration "RoIAlign_backward" (tokens (enabled RoIAlign_h)) = Some sig /\
    map snd (parameters sig) =
      [ "grad"; "rois"; "scale_h"; "scale_w"; "pooled_height"; "pooled_width";
        "batch_size"; "channels"; "height"; "width"; "sampling_ratio" ] /\
    map fst (parameters sig) =
      [ const_at_Tensor_ref; const_at_Tensor_ref; const_float; const_float;
        const_int; const_int; const_int; const_int; const_int; const_int;
        const_int ] /\
    returns sig = at_Tensor.
Proof.
  eexists. split; [ vm_compute; reflexivity | ].
  cbn [parameters returns map fst snd].
  split; [ reflexivity | ]. split; reflexivity.
Qed.

(** The parameter list of RoIAlign_forward also holds the words of the
    comments that were reflowed into it (lines 12 to 19); that of
    RoIAlign_backward holds none. *)
Remark RoIAlign_forward_stray_words :
  length (stray_words "RoIAlign_forward" (tokens (enabled RoIAlign_h))) = 32 /\
  stray_words "RoIAlign_backward" (tokens (enabled RoIAlign_h)) = [].
Proof. split; vm_compute; reflexivity. Qed.

(** A chunk is a parameter as a whole or not at all: a declaration with
    a second declarator or a stray word in a chunk is not read. *)
Example declaration_reads_whole_chunks :
  declaration "f" (tokens ["at::Tensor f(const int x, const float y);"]) =
    Some {| returns := at_Tensor;
            parameters := [(const_int, "x"); (const_float, "y")] |} /\
  declaration "f" (tokens ["at::Tensor f(const int hidden const int x);"]) =
    None /\
  declaration "f" (tokens ["at::Tensor f(over. const int x);"]) = None /\
  declaration "f" (tokens ["at::Tensor f(const int x) stray {"]) = None.
Proof. repeat split. Qed.

(** ** Facts about the dispatch *)

Section DispatchFacts.

Variable Tensor : Type.
Variable is_cuda : Tensor -> bool.

Implicit Types (impl : kernel_call Tensor -> result Tensor).
Implicit Types (c : entry_call Tensor) (WITH_CUDA : bool).

(** A statement that returns or throws ends the sequence it opens. *)
Lemma seq_return_call impl (k : kernel_call Tensor) (pre : list (event Tensor)) s2 :
  seq (completion_of (impl k), pre) s2 = (completion_of (impl k), pre).
Proof. unfold seq. simpl. destruct (impl k); reflexivity. Qed.

(** The three ways a run can go. *)
Lemma run_cases WITH_CUDA impl c :
  run is_cuda WITH_CUDA impl c =
    if is_cuda (first_tensor c) then
      if WITH_CUDA
      then (completion_of (impl (cuda_kernel c)),
            [Is_cuda (first_tensor c); Call (cuda_kernel c)])
      else (Throw "Not compiled with GPU support",
            [Is_cuda (first_tensor c);
             At_error "Not compiled with GPU support"])
    else (completion_of (impl (cpu_kernel c)),
          [Is_cuda (first_tensor c); Call (cpu_kernel c)]).
Proof.
  destruct c; cbn [run first_tensor cuda_kernel cpu_kernel];
    unfold RoIAlign_forward, RoIAlign_backward, if_is_cuda, ifdef_WITH_CUDA;
    match goal with |- context [is_cuda ?t] => destruct (is_cuda t) end;
    try reflexivity;
    destruct WITH_CUDA; try reflexivity;
    apply seq_return_call.
Qed.

(** Proofs go by these three cases. *)
Ltac run_by_cases c WITH_CUDA :=
  rewrite ?run_cases;
  destruct (is_cuda (first_tensor c)); [ destruct WITH_CUDA | ]; cbn.

(** C1, as the code has it. In a build without WITH_CUDA, a call of
    either entry point whose first tensor (input, grad) is on a GPU device
    throws the one message "Not compiled with GPU support" (the code
    spells it with a capital N), and calls no kernel. *)
Theorem unsupported_gpu_aborts impl c :
  is_cuda (first_tensor c) = true ->
  outcome (run is_cuda false impl c) = Throw "Not compiled with GPU support" /\
  errors_raised (trace (run is_cuda false impl c)) =
    ["Not compiled with GPU support"] /\
  kernel_calls (trace (run is_cuda false impl c)) = [].
Proof.
  intros Hgpu. rewrite run_cases, Hgpu. cbn. repeat split.
Qed.

(** C2, as the code has it. RoIAlign_forward branches on the device of
    input, and every input falls in one of three cases: on a GPU device
    with WITH_CUDA defined it returns what RoIAlign_forward_cuda gives on
    the same seven arguments in the same order; off a GPU device it
    returns what RoIAlign_forward_cpu gives on them; on a GPU device
    without WITH_CUDA it returns neither, it throws and calls no kernel. *)
Theorem RoIAlign_forward_dispatches WITH_CUDA impl
    input rois scale_h scale_w pooled_height pooled_width sampling_ratio :
  (is_cuda input = true -> WITH_CUDA = true ->
   RoIAlign_forward is_cuda WITH_CUDA impl input rois scale_h scale_w
     pooled_height pooled_width sampling_ratio =
   (completion_of
      (impl (RoIAlign_forward_cuda input rois scale_h scale_w pooled_height
               pooled_width sampling_ratio)),
    [Is_cuda input;
     Call (RoIAlign_forward_cuda input rois scale_h scale_w pooled_height
             pooled_width sampling_ratio)])) /\
  (is_cuda input = false ->
   RoIAlign_forward is_cuda WITH_CUDA impl input rois scale_h scale_w
     pooled_height pooled_width sampling_ratio =
   (completion_of
      (impl (RoIAlign_forward_cpu input rois scale_h scale_w pooled_height
               pooled_width sampling_ratio)),
    [Is_cuda input;
     Call (RoIAlign_forward_cpu input rois scale_h scale_w pooled_height
             pooled_width sampling_ratio)])) /\
  (is_cuda input = true -> WITH_CUDA = false ->
   RoIAlign_forward is_cuda WITH_CUDA impl input rois scale_h scale_w
     pooled_height pooled_width sampling_ratio =
   (Throw "Not compiled with GPU support",
    [Is_cuda input; At_error "Not compiled with GPU support"])).
Proof.
  pose proof (run_cases WITH_CUDA impl
                (forward_call input rois scale_h scale_w pooled_height
                   pooled_width sampling_ratio)) as H.
  cbn [run first_tensor cuda_kernel cpu_kernel] in H.
  split; [ | split ].
  - intros Hgpu Hbuild. rewrite H, Hgpu, Hbuild. reflexivity.
  - intros Hhost. rewrite H, Hhost. reflexivity.
  - intros Hgpu Hbuild. rewrite H, Hgpu, Hbuild. reflexivity.
Qed.

(** C3, as the code has it. RoIAlign_backward branches on the device of
    grad, and every input falls in one of three cases: on a GPU device
    with WITH_CUDA defined it returns what RoIAlign_backward_cuda gives on
    the same eleven arguments in the same order; off a GPU device it
    returns what RoIAlign_backward_cpu gives on them; on a GPU device
    without WITH_CUDA it returns neither, it throws and calls no kernel. *)
Theorem RoIAlign_backward_dispatches WITH_CUDA impl
    grad rois scale_h scale_w pooled_height pooled_width batch_size channels
    height width sampling_ratio :
  (is_cuda grad = true -> WITH_CUDA = true ->
   RoIAlign_backward is_cuda WITH_CUDA impl grad rois scale_h scale_w
     pooled_height pooled_width batch_size channels height width
     sampling_ratio =
   (completion_of
      (impl (RoIAlign_backward_cuda grad rois scale_h scale_w pooled_height
               pooled_width batch_size channels height width sampling_ratio)),
    [Is_cuda grad;
     Call (RoIAlign_backward_cuda grad rois scale_h scale_w pooled_height
             pooled_width batch_size channels height width sampling_ratio)])) /\
  (is_cuda grad = false ->
   RoIAlign_backward is_cuda WITH_CUDA impl grad rois scale_h scale_w
     pooled_height pooled_width batch_size channels height width
     sampling_ratio =
   (completion_of
      (impl (RoIAlign_backward_cpu grad rois scale_h scale_w pooled_height
               pooled_width batch_size channels height width sampling_ratio)),
    [Is_cuda grad;
     Call (RoIAlign_backward_cpu grad rois scale_h scale_w pooled_height
             pooled_width batch_size channels height width sampling_ratio)])) /\
  (is_cuda grad = true -> WITH_CUDA = false ->
   RoIAlign_backward is_cuda WITH_CUDA impl grad rois scale_h scale_w
     pooled_height pooled_width batch_size channels height width
     sampling_ratio =
   (Throw "Not compiled with GPU support",
    [Is_cuda grad; At_error "Not compiled with GPU support"])).
Proof.
  pose proof (run_cases WITH_CUDA impl
                (backward_call grad rois scale_h scale_w pooled_height
                   pooled_width batch_size channels height width
                   sampling_ratio)) as H.
  cbn [run first_tensor cuda_kernel cpu_kernel] in H.
  split; [ | split ].
  - intros Hgpu Hbuild. rewrite H, Hgpu, Hbuild. reflexivity.
  - intros Hhost. rewrite H, Hhost. reflexivity.
  - intros Hgpu Hbuild. rewrite H, Hgpu, Hbuild. reflexivity.
Qed.

(** C7. The AT_ERROR guard is the only error of the entry points' own:
    with WITH_CUDA defined no call reaches it, in any build a call whose
    first tensor is off the GPU does not reach it, and a run that throws
    either reached the guard or hands on the exception of the one kernel
    it called. *)
Theorem guard_is_the_only_error WITH_CUDA impl c :
  (WITH_CUDA = true ->
   errors_raised (trace (run is_cuda WITH_CUDA impl c)) = []) /\
  (is_cuda (first_tensor c) = false ->
   errors_raised (trace (run is_cuda WITH_CUDA impl c)) = []) /\
  (forall what,
     outcome (run is_cuda WITH_CUDA impl c) = Throw what ->
     (WITH_CUDA = false /\ is_cuda (first_tensor c) = true /\
      errors_raised (trace (run is_cuda WITH_CUDA impl c)) = [what]) \/
     (exists k,
        kernel_calls (trace (run is_cuda WITH_CUDA impl c)) = [k] /\
        impl k = Exception what)).
Proof.
  split; [ | split ].
  - intros ->. rewrite run_cases.
    destruct (is_cuda (first_tensor c)); reflexivity.
  - intros Hhost. rewrite run_cases, Hhost. reflexivity.
  - intros what. run_by_cases c WITH_CUDA.
    + intros Hthrow. right. exists (cuda_kernel c). split; [ reflexivity | ].
      destruct (impl (cuda_kernel c)); cbn in Hthrow; congruence.
    + intros Hthrow. left. injection Hthrow as <-. repeat split.
    + intros Hthrow. right. exists (cpu_kernel c). split; [ reflexivity | ].
      destruct (impl (cpu_kernel c)); cbn in Hthrow; congruence.
Qed.

(** C8, as the code has it. A run makes one device check, on the first
    tensor; when the path it selects has a kernel in the build (every
    case but a GPU tensor without WITH_CUDA), the run is that check and
    then the selected kernel on the arguments as they came: same outcome,
    that one call. *)
Theorem dispatch_refines_selected_kernel WITH_CUDA impl c :
  device_checks (trace (run is_cuda WITH_CUDA impl c)) = [first_tensor c] /\
  (path_compiled WITH_CUDA (selected_path is_cuda c) = true ->
   outcome (run is_cuda WITH_CUDA impl c) =
     outcome (return_call impl (selected_kernel is_cuda c)) /\
   trace (run is_cuda WITH_CUDA impl c) =
     Is_cuda (first_tensor c)
       :: trace (return_call impl (selected_kernel is_cuda c))).
Proof.
  unfold selected_kernel, selected_path.
  run_by_cases c WITH_CUDA;
    (split; [ reflexivity | ]); intros Hp;
    try discriminate; split; reflexivity.
Qed.

(** C9. The branch a call takes (CUDA kernel, CPU kernel or abort)
    depends, in one build, on the device of its first tensor only: two
    calls that agree on it take the same branch, whatever their rois,
    their scalars and the kernels behind them. *)
Theorem branch_depends_on_first_device_only WITH_CUDA impl impl' c c' :
  is_cuda (first_tensor c) = is_cuda (first_tensor c') ->
  branch_taken (trace (run is_cuda WITH_CUDA impl c)) =
  branch_taken (trace (run is_cuda WITH_CUDA impl' c')).
Proof.
  intros Hsame. rewrite !run_cases, <- Hsame.
  run_by_cases c WITH_CUDA;
    try reflexivity; destruct c, c'; reflexivity.
Qed.

(** C10. A run that reaches AT_ERROR has done two things, the device
    check on the first tensor and the error: no kernel was called, the
    run throws the error, and a call with the same first tensor and any
    other arguments, over any kernels, runs the same. *)
Theorem abort_precedes_any_kernel WITH_CUDA impl c what :
  In (At_error what) (trace (run is_cuda WITH_CUDA impl c)) ->
  trace (run is_cuda WITH_CUDA impl c) =
    [Is_cuda (first_tensor c); At_error what] /\
  kernel_calls (trace (run is_cuda WITH_CUDA impl c)) = [] /\
  outcome (run is_cuda WITH_CUDA impl c) = Throw what /\
  (forall impl' c',
     first_tensor c' = first_tensor c ->
     run is_cuda WITH_CUDA impl' c' = run is_cuda WITH_CUDA impl c).
Proof.
  intros Hin.
  assert (Hcase : is_cuda (first_tensor c) = true /\ WITH_CUDA = false /\
                  what = "Not compiled with GPU support").
  { revert Hin. run_by_cases c WITH_CUDA; intros Hin;
      intuition (try discriminate); congruence. }
  destruct Hcase as (Hgpu & -> & ->).
  rewrite run_cases, Hgpu. cbn.
  repeat split.
  intros impl' c' Hfirst. rewrite !run_cases, Hfirst, Hgpu. reflexivity.
Qed.

End DispatchFacts.

(** *** The theorems on the small tensor type *)

Example forward_on_host_tensor :
  run tensor_is_cuda false echo_kernels (forward_on host_tensor gpu_tensor) =
  (Return host_tensor,
   [Is_cuda host_tensor;
    Call (RoIAlign_forward_cpu host_tensor gpu_tensor half half 7%Z 7%Z 2%Z)]).
Proof. reflexivity. Qed.

Example backward_without_cuda_on_gpu_tensor :
  run tensor_is_cuda false echo_kernels (backward_on gpu_tensor host_tensor) =
  (Throw "Not compiled with GPU support",
   [Is_cuda gpu_tensor; At_error "Not compiled with GPU support"]).
Proof. reflexivity. Qed.

Example kernel_exception_is_handed_on :
  run tensor_is_cuda true refusing_kernels (forward_on gpu_tensor host_tensor) =
  (Throw "kernel refused",
   [Is_cuda gpu_tensor;
    Call (RoIAlign_forward_cuda gpu_tensor host_tensor half half 7%Z 7%Z 2%Z)]).
Proof. reflexivity. Qed.

(** C1: the message of the guard is not the lower-case one. *)
Lemma guard_message_has_capital_N :
  tensor_is_cuda (first_tensor (forward_on gpu_tensor host_tensor)) = true /\
  outcome (run tensor_is_cuda false echo_kernels
             (forward_on gpu_tensor host_tensor))
    <> Throw "not compiled with GPU support".
Proof. split; [ reflexivity | cbn; discriminate ]. Qed.

Lemma unsupported_gpu_aborts_on_sample :
  tensor_is_cuda (first_tensor (backward_on gpu_tensor host_tensor)) = true /\
  outcome (run tensor_is_cuda false echo_kernels
             (backward_on gpu_tensor host_tensor))
    = Throw "Not compiled with GPU support" /\
  errors_raised (trace (run tensor_is_cuda false echo_kernels
                          (backward_on gpu_tensor host_tensor)))
    = ["Not compiled with GPU support"] /\
  kernel_calls (trace (run tensor_is_cuda false echo_kernels
                         (backward_on gpu_tensor host_tensor))) = [].
Proof.
  split; [ reflexivity | ].
  apply (unsupported_gpu_aborts tensor tensor_is_cuda echo_kernels
           (backward_on gpu_tensor host_tensor)).
  reflexivity.
Defined.

(** C2: on a GPU tensor without WITH_CUDA the call is not the CPU kernel
    on the same arguments, nor the CUDA kernel: it ends otherwise and no
    kernel is called. *)
Lemma forward_on_gpu_without_cuda_is_no_kernel :
  tensor_is_cuda gpu_tensor = true /\
  outcome (RoIAlign_forward tensor_is_cuda false echo_kernels gpu_tensor
             host_tensor half half 7%Z 7%Z 2%Z)
    <> outcome (return_call echo_kernels
                  (RoIAlign_forward_cpu gpu_tensor host_tensor half half
                     7%Z 7%Z 2%Z)) /\
  outcome (RoIAlign_forward tensor_is_cuda false echo_kernels gpu_tensor
             host_tensor half half 7%Z 7%Z 2%Z)
    <> outcome (return_call echo_kernels
                  (RoIAlign_forward_cuda gpu_tensor host_tensor half half
                     7%Z 7%Z 2%Z)) /\
  kernel_calls (trace (RoIAlign_forward tensor_is_cuda false echo_kernels
                         gpu_tensor host_tensor half half 7%Z 7%Z 2%Z)) = [].
Proof.
  split; [ reflexivity | ].
  split; [ cbn; discriminate | ].
  split; [ cbn; discriminate | reflexivity ].
Qed.

Lemma RoIAlign_forward_dispatches_on_sample :
  RoIAlign_forward tensor_is_cuda true echo_kernels gpu_tensor host_tensor
    half half 7%Z 7%Z 2%Z =
  (Return gpu_tensor,
   [Is_cuda gpu_tensor;
    Call (RoIAlign_forward_cuda gpu_tensor host_tensor half half 7%Z 7%Z 2%Z)])
  /\
  RoIAlign_forward tensor_is_cuda false echo_kernels host_tensor gpu_tensor
    half half 7%Z 7%Z 2%Z =
  (Return host_tensor,
   [Is_cuda host_tensor;
    Call (RoIAlign_forward_cpu host_tensor gpu_tensor half half 7%Z 7%Z 2%Z)])
  /\
  RoIAlign_forward tensor_is_cuda false echo_kernels gpu_tensor host_tensor
    half half 7%Z 7%Z 2%Z =
  (Throw "Not compiled with GPU support",
   [Is_cuda gpu_tensor; At_error "Not compiled with GPU support"]).
Proof.
  split; [ | split ].
  - apply (proj1 (RoIAlign_forward_dispatches tensor tensor_is_cuda true
                    echo_kernels gpu_tensor host_tensor half half
                    7%Z 7%Z 2%Z)); reflexivity.
  - apply (proj1 (proj2 (RoIAlign_forward_dispatches tensor tensor_is_cuda
                           false echo_kernels host_tensor gpu_tensor half
                           half 7%Z 7%Z 2%Z))); reflexivity.
  - apply (proj2 (proj2 (RoIAlign_forward_dispatches tensor tensor_is_cuda
                           false echo_kernels gpu_tensor host_tensor half
                           half 7%Z 7%Z 2%Z))); reflexivity.
Defined.

(** C3: the same on RoIAlign_backward. *)
Lemma backward_on_gpu_without_cuda_is_no_kernel :
  tensor_is_cuda gpu_tensor = true /\
  outcome (RoIAlign_backward tensor_is_cuda false echo_kernels gpu_tensor
             host_tensor half half 7%Z 7%Z 1%Z 256%Z 50%Z 50%Z 2%Z)
    <> outcome (return_call echo_kernels
                  (RoIAlign_backward_cpu gpu_tensor host_tensor half half
                     7%Z 7%Z 1%Z 256%Z 50%Z 50%Z 2%Z)) /\
  outcome (RoIAlign_backward tensor_is_cuda false echo_kernels gpu_tensor
             host_tensor half half 7%Z 7%Z 1%Z 256%Z 50%Z 50%Z 2%Z)
    <> outcome (return_call echo_kernels
                  (RoIAlign_backward_cuda gpu_tensor host_tensor half half
                     7%Z 7%Z 1%Z 256%Z 50%Z 50%Z 2%Z)) /\
  kernel_calls (trace (RoIAlign_backward tensor_is_cuda false echo_kernels
                         gpu_tensor host_tensor half half 7%Z 7%Z 1%Z 256%Z
                         50%Z 50%Z 2%Z)) = [].
Proof.
  split; [ reflexivity | ].
  split; [ cbn; discriminate | ].
  split; [ cbn; discriminate | reflexivity ].
Qed.

Lemma RoIAlign_backward_dispatches_on_sample :
  RoIAlign_backward tensor_is_cuda true echo_kernels gpu_tensor host_tensor
    half half 7%Z 7%Z 1%Z 256%Z 50%Z 50%Z 2%Z =
  (Return gpu_tensor,
   [Is_cuda gpu_tensor;
    Call (RoIAlign_backward_cuda gpu_tensor host_tensor half half 7%Z 7%Z
            1%Z 256%Z 50%Z 50%Z 2%Z)])
  /\
  RoIAlign_backward tensor_is_cuda false echo_kernels host_tensor gpu_tensor
    half half 7%Z 7%Z 1%Z 256%Z 50%Z 50%Z 2%Z =
  (Return host_tensor,
   [Is_cuda host_tensor;
    Call (RoIAlign_backward_cpu host_tensor gpu_tensor half half 7%Z 7%Z
            1%Z 256%Z 50%Z 50%Z 2%Z)])
  /\
  RoIAlign_backward tensor_is_cuda false echo_kernels gpu_tensor host_tensor
    half half 7%Z 7%Z 1%Z 256%Z 50%Z 50%Z 2%Z =
  (Throw "Not compiled with GPU support",
   [Is_cuda gpu_tensor; At_error "Not compiled with GPU support"]).
Proof.
  split; [ | split ].
  - apply (proj1 (RoIAlign_backward_dispatches tensor tensor_is_cuda true
                    echo_kernels gpu_tensor host_tensor half half
                    7%Z 7%Z 1%Z 256%Z 50%Z 50%Z 2%Z)); reflexivity.
  - apply (proj1 (proj2 (RoIAlign_backward_dispatches tensor tensor_is_cuda
                           false echo_kernels host_tensor gpu_tensor half
                           half 7%Z 7%Z 1%Z 256%Z 50%Z 50%Z 2%Z)));
      reflexivity.
  - apply (proj2 (proj2 (RoIAlign_backward_dispatches tensor tensor_is_cuda
                           false echo_kernels gpu_tensor host_tensor half
                           half 7%Z 7%Z 1%Z 256%Z 50%Z 50%Z 2%Z)));
      reflexivity.
Defined.

Lemma guard_is_the_only_error_on_sample :
  errors_raised (trace (run tensor_is_cuda true echo_kernels
                          (forward_on gpu_tensor host_tensor))) = [] /\
  errors_raised (trace (run tensor_is_cuda false echo_kernels
                          (backward_on host_tensor gpu_tensor))) = [] /\
  ((false = false /\
    tensor_is_cuda (first_tensor (forward_on gpu_tensor host_tensor)) = true /\
    errors_raised (trace (run tensor_is_cuda false echo_kernels
                            (forward_on gpu_tensor host_tensor)))
      = ["Not compiled with GPU support"]) \/
   (exists k,
      kernel_calls (trace (run tensor_is_cuda false echo_kernels
                             (forward_on gpu_tensor host_tensor))) = [k] /\
      echo_kernels k = Exception "Not compiled with GPU support")).
Proof.
  split; [ | split ].
  - apply (proj1 (guard_is_the_only_error tensor tensor_is_cuda true
                    echo_kernels (forward_on gpu_tensor host_tensor))).
    reflexivity.
  - apply (proj1 (proj2 (guard_is_the_only_error tensor tensor_is_cuda false
                           echo_kernels (backward_on host_tensor gpu_tensor)))).
    reflexivity.
  - apply (proj2 (proj2 (guard_is_the_only_error tensor tensor_is_cuda false
                           echo_kernels (forward_on gpu_tensor host_tensor)))).
    reflexivity.
Defined.

(** C8: in a build without WITH_CUDA the run on a GPU tensor ends as no
    kernel on these arguments ends, the selected one or any other. *)
Lemma guard_outcome_is_no_kernel_outcome :
  outcome (run tensor_is_cuda false echo_kernels
             (forward_on gpu_tensor host_tensor))
    <> outcome (return_call echo_kernels
                  (selected_kernel tensor_is_cuda
                     (forward_on gpu_tensor host_tensor))) /\
  (forall k,
     outcome (run tensor_is_cuda false echo_kernels
                (forward_on gpu_tensor host_tensor))
       <> outcome (return_call echo_kernels k)) /\
  kernel_calls (trace (run tensor_is_cuda false echo_kernels
                         (forward_on gpu_tensor host_tensor))) = [].
Proof.
  split; [ cbn; discriminate | split ].
  - intros k. destruct k; cbn; discriminate.
  - reflexivity.
Qed.

Lemma dispatch_refines_selected_kernel_on_sample :
  path_compiled true
    (selected_path tensor_is_cuda (backward_on gpu_tensor host_tensor)) = true /\
  outcome (run tensor_is_cuda true echo_kernels
             (backward_on gpu_tensor host_tensor)) =
    outcome (return_call echo_kernels
               (selected_kernel tensor_is_cuda
                  (backward_on gpu_tensor host_tensor))) /\
  trace (run tensor_is_cuda true echo_kernels
           (backward_on gpu_tensor host_tensor)) =
    Is_cuda gpu_tensor
      :: trace (return_call echo_kernels
                  (selected_kernel tensor_is_cuda
                     (backward_on gpu_tensor host_tensor))).
Proof.
  split; [ reflexivity | ].
  apply (proj2 (dispatch_refines_selected_kernel tensor tensor_is_cuda true
                  echo_kernels (backward_on gpu_tensor host_tensor))).
  reflexivity.
Defined.

(** Two calls that differ in the device of rois, and in every scalar. *)
Lemma branch_depends_on_first_device_only_on_sample :
  tensor_is_cuda (first_tensor (forward_on gpu_tensor host_tensor)) =
  tensor_is_cuda
    (first_tensor (forward_call gpu_tensor gpu_tensor (S754_zero false) half
                     1%Z 3%Z 0%Z)) /\
  branch_taken (trace (run tensor_is_cuda false echo_kernels
                         (forward_on gpu_tensor host_tensor))) =
  branch_taken (trace (run tensor_is_cuda false echo_kernels
                         (forward_call gpu_tensor gpu_tensor (S754_zero false)
                            half 1%Z 3%Z 0%Z))).
Proof.
  split; [ reflexivity | ].
  apply (branch_depends_on_first_device_only tensor tensor_is_cuda false
           echo_kernels echo_kernels).
  reflexivity.
Defined.

Lemma abort_precedes_any_kernel_on_sample :
  In (At_error "Not compiled with GPU support")
     (trace (run tensor_is_cuda false echo_kernels
               (forward_on gpu_tensor host_tensor))) /\
  trace (run tensor_is_cuda false echo_kernels
           (forward_on gpu_tensor host_tensor)) =
    [Is_cuda gpu_tensor; At_error "Not compiled with GPU support"] /\
  kernel_calls (trace (run tensor_is_cuda false echo_kernels
                         (forward_on gpu_tensor host_tensor))) = [] /\
  outcome (run tensor_is_cuda false echo_kernels
             (forward_on gpu_tensor host_tensor)) =
    Throw "Not compiled with GPU support" /\
  (forall impl' c',
     first_tensor c' = first_tensor (forward_on gpu_tensor host_tensor) ->
     run tensor_is_cuda false impl' c' =
     run tensor_is_cuda false echo_kernels (forward_on gpu_tensor host_tensor)).
Proof.
  assert (Hin : In (At_error "Not compiled with GPU support")
                  (trace (run tensor_is_cuda false echo_kernels
                            (forward_on gpu_tensor host_tensor))))
    by (right; left; reflexivity).
  split; [ exact Hin | ].
  exact (abort_precedes_any_kernel tensor tensor_is_cuda false echo_kernels
           (forward_on gpu_tensor host_tensor) _ Hin).
Defined.

(** ** Further facts about the dispatch *)

Section RunFacts.

Variable Tensor : Type.
Variable is_cuda : Tensor -> bool.

Implicit Types (impl : kernel_call Tensor -> result Tensor).
Implicit Types (c : entry_call Tensor) (WITH_CUDA : bool).

Ltac three_cases c WITH_CUDA :=
  rewrite ?run_cases;
  destruct (is_cuda (first_tensor c)) eqn:Hdevice;
    [ destruct WITH_CUDA | ]; cbn.

(** X1. A run never falls off the end of the function: it returns or it
    throws.  After the device check it does one thing, a kernel call or
    the error of the guard, never both and never two calls. *)
Theorem run_returns_or_throws WITH_CUDA impl c :
  outcome (run is_cuda WITH_CUDA impl c) <> Fallthrough /\
  length (trace (run is_cuda WITH_CUDA impl c)) = 2 /\
  length (kernel_calls (trace (run is_cuda WITH_CUDA impl c)))
    + length (errors_raised (trace (run is_cuda WITH_CUDA impl c))) = 1.
Proof.
  three_cases c WITH_CUDA; repeat split; try discriminate.
  - destruct (impl (cuda_kernel c)); discriminate.
  - destruct (impl (cpu_kernel c)); discriminate.
Qed.

(** X2. A kernel that a run calls is the kernel for the device of the
    first tensor: a CUDA kernel on a GPU tensor, a CPU kernel otherwise;
    and a CUDA kernel is called only in a build with WITH_CUDA. *)
Theorem called_kernel_matches_device WITH_CUDA impl c k :
  In k (kernel_calls (trace (run is_cuda WITH_CUDA impl c))) ->
  on_cuda k = is_cuda (first_tensor c) /\
  (on_cuda k = true -> WITH_CUDA = true).
Proof.
  three_cases c WITH_CUDA;
    intros Hin; try contradiction; destruct Hin as [ <- | [] ];
    destruct c; cbn; split; try reflexivity; intros; congruence.
Qed.

(** X3. RoIAlign_forward calls forward kernels only and RoIAlign_backward
    backward kernels only. *)
Theorem entry_point_calls_its_own_kernels WITH_CUDA impl c k :
  In k (kernel_calls (trace (run is_cuda WITH_CUDA impl c))) ->
  forward_kernel k = forward_entry c.
Proof.
  three_cases c WITH_CUDA;
    intros Hin; try contradiction; destruct Hin as [ <- | [] ];
    destruct c; reflexivity.
Qed.

(** X4. On a first tensor that is not on a GPU device the build makes no
    difference: with WITH_CUDA and without it the run is the same. *)
Theorem host_tensor_ignores_the_build impl c :
  is_cuda (first_tensor c) = false ->
  run is_cuda true impl c = run is_cuda false impl c.
Proof.
  intros Hhost. rewrite !run_cases, Hhost. reflexivity.
Qed.

(** X5. A run depends on the kernels through the selected kernel only:
    two sets of kernels that give the same on the selected kernel of a
    call give the same run of it. *)
Theorem run_depends_on_selected_kernel_only WITH_CUDA impl impl' c :
  impl (selected_kernel is_cuda c) = impl' (selected_kernel is_cuda c) ->
  run is_cuda WITH_CUDA impl c = run is_cuda WITH_CUDA impl' c.
Proof.
  unfold selected_kernel, selected_path. rewrite !run_cases.
  destruct (is_cuda (first_tensor c)); [ destruct WITH_CUDA | ];
    intros Hsame; rewrite ?Hsame; reflexivity.
Qed.

(** X6. A run returns a tensor exactly when the selected path has a
    kernel in the build and that kernel returns this tensor. *)
Theorem returns_iff_selected_kernel_returns WITH_CUDA impl c t :
  outcome (run is_cuda WITH_CUDA impl c) = Return t <->
  path_compiled WITH_CUDA (selected_path is_cuda c) = true /\
  impl (selected_kernel is_cuda c) = Value t.
Proof.
  unfold selected_kernel, selected_path. three_cases c WITH_CUDA.
  - destruct (impl (cuda_kernel c)); cbn; split;
      [ intros [= ->]; now split | intros [ _ [= ->] ]; reflexivity
      | discriminate | intros [ _ H ]; discriminate ].
  - split; [ discriminate | intros [ H _ ]; discriminate ].
  - destruct (impl (cpu_kernel c)); cbn; split;
      [ intros [= ->]; now split | intros [ _ [= ->] ]; reflexivity
      | discriminate | intros [ _ H ]; discriminate ].
Qed.

End RunFacts.

(** ** Facts about the bodies *)

Section BodyFacts.

Lemma parse_RoIAlign_backward :
  parse_function "RoIAlign_backward" (tokens (enabled RoIAlign_h)) =
  Some {| fn_signature :=
            {| returns := at_Tensor;
               parameters :=
                 [ (const_at_Tensor_ref, "grad");
                   (const_at_Tensor_ref, "rois");
                   (const_float, "scale_h"); (const_float, "scale_w");
                   (const_int, "pooled_height"); (const_int, "pooled_width");
                   (const_int, "batch_size"); (const_int, "channels");
                   (const_int, "height"); (const_int, "width");
                   (const_int, "sampling_ratio") ] |};
          fn_body :=
            dispatch_shape "grad" "RoIAlign_backward_cuda"
              "RoIAlign_backward_cpu"
              [ "grad"; "rois"; "scale_h"; "scale_w"; "pooled_height";
                "pooled_width"; "batch_size"; "channels"; "height"; "width";
                "sampling_ratio" ] |}.
Proof. vm_compute. reflexivity. Qed.

(** X7. In the enabled text RoIAlign_backward is a function definition
    of the dispatch shape: the device check is on its first declared
    parameter, the kernels called are its name with _cuda and _cpu
    appended, each call passes all declared parameters in their declared
    order, and the other branch of the #ifdef is AT_ERROR with the
    message Not compiled with GPU support. *)
Theorem RoIAlign_backward_has_dispatch_shape :
  has_dispatch_shape "RoIAlign_backward" (tokens (enabled RoIAlign_h)).
Proof.
  eexists. exists "grad". rewrite parse_RoIAlign_backward.
  split; [ reflexivity | ]. split; reflexivity.
Qed.

(** X11. The block of lines 20 to 31, the body meant for
    RoIAlign_forward, is of the same shape once enabled: it checks input
    and hands input, rois, scale_h, scale_w, pooled_height, pooled_width
    and sampling_ratio, in this order, to RoIAlign_forward_cuda and to
    RoIAlign_forward_cpu. *)
Theorem lines_20_to_31_have_dispatch_shape :
  parse_braced_block (tokens (lines_between 20 31 (enabled RoIAlign_h))) =
  Some (dispatch_shape "input" "RoIAlign_forward_cuda" "RoIAlign_forward_cpu"
          [ "input"; "rois"; "scale_h"; "scale_w"; "pooled_height";
            "pooled_width"; "sampling_ratio" ]).
Proof. vm_compute. reflexivity. Qed.

End BodyFacts.

(** ** Facts about conditional compilation *)

Section ConditionalFacts.

(** Conditional compilation looks at the macros the text tests and at no
    other. *)
Lemma compiled_agree (defined defined' : string -> bool) ts :
  (forall m, In m (tested_macros ts) -> defined m = defined' m) ->
  forall stack, compiled defined stack ts = compiled defined' stack ts.
Proof.
  induction ts as [ | t ts IH ]; intros Hagree stack; [ reflexivity | ].
  destruct t as [ x | p | x | d ];
    try (cbn [compiled tested_macros] in *;
         rewrite (IH Hagree); reflexivity).
  cbn [compiled tested_macros] in *.
  destruct (words d) as [ | k [ | m [ | ? ? ] ] ].
  - rewrite (IH Hagree). reflexivity.
  - destruct (String.eqb k "else"); [ | destruct (String.eqb k "endif") ];
      rewrite !(IH Hagree); reflexivity.
  - destruct (String.eqb k "ifdef") eqn:Eifdef;
      [ | destruct (String.eqb k "ifndef") eqn:Eifndef ];
      cbn [orb] in Hagree.
    + rewrite (Hagree m (or_introl eq_refl)).
      apply IH. intros m' Hm'. apply Hagree. now right.
    + rewrite (Hagree m (or_introl eq_refl)).
      apply IH. intros m' Hm'. apply Hagree. now right.
    + rewrite (IH Hagree). reflexivity.
  - rewrite (IH Hagree). reflexivity.
Qed.

Lemma enabled_text_tests_WITH_CUDA m :
  In m (tested_macros (tokens (enabled RoIAlign_h))) -> m = "WITH_CUDA".
Proof.
  assert (H : tested_macros (tokens (enabled RoIAlign_h)) =
              ["WITH_CUDA"; "WITH_CUDA"; "WITH_CUDA"])
    by (vm_compute; reflexivity).
  rewrite H. cbn. intuition congruence.
Qed.

(** X10. What reaches the compiler of the enabled text depends on
    WITH_CUDA alone, whatever other macros are defined.  cpu/vision.h is
    always included and the CPU kernels are always named; cuda/vision.h
    is included and the CUDA kernels are named exactly when WITH_CUDA is
    defined, and AT_ERROR is named exactly when it is not. *)
Theorem conditional_compilation_of_enabled_text (defined : string -> bool) :
  let ts := compiled defined [] (tokens (enabled RoIAlign_h)) in
  includes ts =
    "cpu/vision.h"
      :: (if defined "WITH_CUDA" then ["cuda/vision.h"] else []) /\
  mentions "RoIAlign_forward_cpu" ts = true /\
  mentions "RoIAlign_backward_cpu" ts = true /\
  mentions "RoIAlign_forward_cuda" ts = defined "WITH_CUDA" /\
  mentions "RoIAlign_backward_cuda" ts = defined "WITH_CUDA" /\
  mentions "AT_ERROR" ts = negb (defined "WITH_CUDA").
Proof.
  intros ts. subst ts.
  rewrite (compiled_agree defined (fun _ => defined "WITH_CUDA")).
  - destruct (defined "WITH_CUDA"); vm_compute; repeat split.
  - intros m Hm. now rewrite (enabled_text_tests_WITH_CUDA m Hm).
Qed.

End ConditionalFacts.

(** *** The further facts on the small tensor type *)

Lemma called_kernel_matches_device_on_sample :
  In (RoIAlign_forward_cuda gpu_tensor host_tensor half half 7%Z 7%Z 2%Z)
     (kernel_calls (trace (run tensor_is_cuda true echo_kernels
                             (forward_on gpu_tensor host_tensor)))) /\
  on_cuda (RoIAlign_forward_cuda gpu_tensor host_tensor half half 7%Z 7%Z 2%Z)
    = tensor_is_cuda (first_tensor (forward_on gpu_tensor host_tensor)) /\
  (on_cuda (RoIAlign_forward_cuda gpu_tensor host_tensor half half
              7%Z 7%Z 2%Z) = true -> true = true).
Proof.
  assert (Hin : In (RoIAlign_forward_cuda gpu_tensor host_tensor half half
                      7%Z 7%Z 2%Z)
                  (kernel_calls (trace (run tensor_is_cuda true echo_kernels
                                          (forward_on gpu_tensor host_tensor)))))
    by (left; reflexivity).
  split; [ exact Hin | ].
  exact (called_kernel_matches_device tensor tensor_is_cuda true echo_kernels
           (forward_on gpu_tensor host_tensor) _ Hin).
Defined.

Lemma entry_point_calls_its_own_kernels_on_sample :
  In (RoIAlign_backward_cpu host_tensor gpu_tensor half half 7%Z 7%Z 1%Z
        256%Z 50%Z 50%Z 2%Z)
     (kernel_calls (trace (run tensor_is_cuda false echo_kernels
                             (backward_on host_tensor gpu_tensor)))) /\
  forward_kernel
    (RoIAlign_backward_cpu host_tensor gpu_tensor half half 7%Z 7%Z 1%Z
       256%Z 50%Z 50%Z 2%Z)
    = forward_entry (backward_on host_tensor gpu_tensor).
Proof.
  assert (Hin : In (RoIAlign_backward_cpu host_tensor gpu_tensor half half
                      7%Z 7%Z 1%Z 256%Z 50%Z 50%Z 2%Z)
                  (kernel_calls (trace (run tensor_is_cuda false echo_kernels
                                          (backward_on host_tensor gpu_tensor)))))
    by (left; reflexivity).
  split; [ exact Hin | ].
  exact (entry_point_calls_its_own_kernels tensor tensor_is_cuda false
           echo_kernels (backward_on host_tensor gpu_tensor) _ Hin).
Defined.

Lemma host_tensor_ignores_the_build_on_sample :
  tensor_is_cuda (first_tensor (backward_on host_tensor gpu_tensor)) = false /\
  run tensor_is_cuda true echo_kernels (backward_on host_tensor gpu_tensor) =
  run tensor_is_cuda false echo_kernels (backward_on host_tensor gpu_tensor).
Proof.
  split; [ reflexivity | ].
  apply (host_tensor_ignores_the_build tensor tensor_is_cuda echo_kernels
           (backward_on host_tensor gpu_tensor)).
  reflexivity.
Defined.

Lemma run_depends_on_selected_kernel_only_on_sample :
  echo_kernels
    (selected_kernel tensor_is_cuda (forward_on host_tensor gpu_tensor)) =
  host_only_kernels
    (selected_kernel tensor_is_cuda (forward_on host_tensor gpu_tensor)) /\
  run tensor_is_cuda true echo_kernels (forward_on host_tensor gpu_tensor) =
  run tensor_is_cuda true host_only_kernels
    (forward_on host_tensor gpu_tensor).
Proof.
  split; [ reflexivity | ].
  apply (run_depends_on_selected_kernel_only tensor tensor_is_cuda true
           echo_kernels host_only_kernels (forward_on host_tensor gpu_tensor)).
  reflexivity.
Defined.
